(** * COAVerse student level predictor: the [/predict] handler

    A shallow embedding of [backend/ml/app.py]: the module-level artifact
    loads, the request handler [predict_level] and the Python builtins it
    calls ([dict.__getitem__], [float], [int], [str] of an exception).

    Python values are embedded as data: a [dict] with string keys as a
    [gmap string value], an [int] as [Z], a [float] as an IEEE binary64
    ([spec_float] with precision 53 and maximal exponent 1024), a [str] as
    a [string].  A raised exception is the left injection of a sum, so the
    [try] block is a computation in the error monad and the [except]
    clause a case analysis on its result. *)

From Stdlib Require Import ZArith Ascii String List Lia.
From Stdlib Require Import Floats.SpecFloat.
From stdpp Require Import base option list gmap strings pretty.

Local Open Scope string_scope.
Local Open Scope Z_scope.

(** ** Strings *)

Module PyStr.

Definition chars (s : string) : list ascii := list_ascii_of_string s.
Definition of_chars (l : list ascii) : string := string_of_list_ascii l.

Definition code (c : ascii) : Z := Z.of_N (N_of_ascii c).

(** The characters the numeric parsers skip around a literal: tab, line
    feed, vertical tab, form feed, carriage return and the space.
    (Python also knows blanks and digits outside ASCII; strings here are
    byte strings and only the ASCII forms are recognised.) *)
Definition is_space (c : ascii) : bool :=
  let n := code c in
  ((9 <=? n) && (n <=? 13)) || (n =? 32).

Definition is_digit (c : ascii) : bool :=
  let n := code c in (48 <=? n) && (n <=? 57).

Definition digit_value (c : ascii) : Z := code c - 48.

Fixpoint lstrip (l : list ascii) : list ascii :=
  match l with
  | c :: l' => if is_space c then lstrip l' else l
  | [] => []
  end.

Definition strip (l : list ascii) : list ascii :=
  rev (lstrip (rev (lstrip l))).

(** ASCII lower-casing, for the case-insensitive words [inf] and [nan]. *)
Definition lower (c : ascii) : ascii :=
  let n := code c in
  if (65 <=? n) && (n <=? 90) then ascii_of_N (Z.to_N (n + 32)) else c.

(** [contains needle hay]: [needle in hay]. *)
Fixpoint contains (needle hay : string) : bool :=
  String.prefix needle hay ||
  match hay with
  | EmptyString => false
  | String _ hay' => contains needle hay'
  end.

Definition backslash : ascii := ascii_of_N 92.
Definition quote : ascii := ascii_of_N 39.
Definition double_quote : ascii := ascii_of_N 34.

Definition hex_digit (n : Z) : ascii :=
  ascii_of_N (Z.to_N (if n <? 10 then 48 + n else 87 + n)).

(** One character of [repr(s)] with [q] the quote chosen for the
    whole string. *)
Definition repr_char (q c : ascii) : list ascii :=
  let n := code c in
  if Ascii.eqb c q || Ascii.eqb c backslash then [backslash; c]
  else if n =? 9 then [backslash; "t"%char]
  else if n =? 10 then [backslash; "n"%char]
  else if n =? 13 then [backslash; "r"%char]
  else if (n <? 32) || (n =? 127)
       then [backslash; "x"%char; hex_digit (n / 16); hex_digit (n mod 16)]
  else [c].

(** [repr(s)]: single quotes, unless the string holds a single quote
    and no double quote. *)
Definition repr (s : string) : string :=
  let l := chars s in
  let has c := existsb (Ascii.eqb c) l in
  let q := if has quote && negb (has double_quote) then double_quote
           else quote in
  of_chars ((q :: concat (map (repr_char q) l)) ++ [q])%list.

End PyStr.

(** ** Floats: IEEE binary64 *)

Module PyFloat.

Definition prec : Z := 53.
Definition emax : Z := 1024.

Definition t : Type := spec_float.

(** Nearest-even rounding of an integer; an infinite result is left to
    the caller. *)
Definition of_Z (n : Z) : t := binary_normalize prec emax n 0 false.

(** Nearest-even rounding of [(-1)^s * m * 10^e], the value of a decimal
    literal.  For a negative exponent the quotient is taken with enough
    extra bits and the remainder decides the rounding location. *)
Definition of_decimal (s : bool) (m : Z) (e : Z) : t :=
  match m with
  | Zpos p =>
      if 0 <=? e then binary_round prec emax s (Z.to_pos (m * 10 ^ e)) 0
      else
        let d := 10 ^ (- e) in
        let k := Z.log2 d + 64 in
        let '(q, r) := Z.div_eucl (Z.shiftl m k) d in
        binary_round_aux prec emax s q (- k) (new_location d r)
  | _ => S754_zero s
  end.

(** Truncation toward zero of a finite float: [float.__trunc__]. *)
Definition trunc (s : bool) (m : positive) (e : Z) : Z :=
  let a := if 0 <=? e then Z.shiftl (Zpos m) e else Z.shiftr (Zpos m) (- e) in
  if s then - a else a.

Definition of_bool (b : bool) : t :=
  if b then of_Z 1 else S754_zero false.

Definition is_finite (f : t) : bool :=
  match f with
  | S754_zero _ | S754_finite _ _ _ => true
  | _ => false
  end.

End PyFloat.

(** ** Numeric literals in strings *)

Module PyParse.
Import PyStr.

(** Underscores may only stand between two digits; they are dropped.
    [prev] is whether the previous character was a digit. *)
Fixpoint drop_underscores (prev : bool) (l : list ascii) : option (list ascii) :=
  match l with
  | [] => Some []
  | c :: l' =>
      if Ascii.eqb c "_"%char then
        match l' with
        | d :: _ => if prev && is_digit d then drop_underscores false l' else None
        | [] => None
        end
      else option_map (cons c) (drop_underscores (is_digit c) l')
  end.

(** The longest prefix of characters that satisfy [p], and the rest. *)
Fixpoint span (p : ascii -> bool) (l : list ascii) : list ascii * list ascii :=
  match l with
  | c :: l' =>
      if p c then let '(ds, r) := span p l' in (c :: ds, r)
      else ([], l)
  | [] => ([], [])
  end.

Definition span_digits : list ascii -> list ascii * list ascii := span is_digit.

Definition digits_value (ds : list ascii) : Z :=
  fold_left (fun acc c => 10 * acc + digit_value c) ds 0.

(** An optional sign: [true] for a minus. *)
Definition take_sign (l : list ascii) : bool * list ascii :=
  match l with
  | c :: l' =>
      if Ascii.eqb c "-"%char then (true, l')
      else if Ascii.eqb c "+"%char then (false, l')
      else (false, l)
  | [] => (false, [])
  end.

(** What [int(s)] makes of a string: a value, a literal with more digits
    than the interpreter converts, or no literal at all. *)
Inductive int_literal : Type :=
  | IntValue (n : Z)
  | IntTooLong (digits : nat)
  | IntInvalid.

(** [sys.int_info.default_max_str_digits] *)
Definition max_str_digits : nat := 4300.

(** [int(s)], base 10: blanks, sign, a run of digits with single
    underscores between them, blanks.  The run is checked and its digits
    counted before what follows it is looked at. *)
Definition parse_int (s : string) : int_literal :=
  let '(neg, l) := take_sign (lstrip (chars s)) in
  let '(run, rest) := span (fun c => is_digit c || Ascii.eqb c "_"%char) l in
  match drop_underscores false run with
  | Some [] | None => IntInvalid
  | Some ds =>
      if (max_str_digits <? length ds)%nat then IntTooLong (length ds)
      else match lstrip rest with
           | [] => IntValue (if neg then - digits_value ds else digits_value ds)
           | _ => IntInvalid
           end
  end.

(** The exponent part of a float literal: [e], optional sign, digits.
    When it is not well formed nothing is consumed. *)
Definition take_exponent (l : list ascii) : Z * list ascii :=
  match l with
  | c :: l' =>
      if Ascii.eqb (lower c) "e"%char then
        let '(neg, l'') := take_sign l' in
        match span_digits l'' with
        | ([], _) => (0, l)
        | (ds, r) => ((if neg then - digits_value ds else digits_value ds), r)
        end
      else (0, l)
  | [] => (0, [])
  end.

(** A decimal literal: digits, optional point and digits (one digit at
    least in all), optional exponent; nothing may follow. *)
Definition parse_decimal (neg : bool) (l : list ascii) : option PyFloat.t :=
  let '(ip, r1) := span_digits l in
  let '(fp, r2) :=
    match r1 with
    | c :: r => if Ascii.eqb c "."%char then span_digits r else ([], r1)
    | [] => ([], r1)
    end in
  match (ip ++ fp)%list with
  | [] => None
  | ds =>
      match take_exponent r2 with
      | (ex, []) =>
          Some (PyFloat.of_decimal neg (digits_value ds) (ex - Z.of_nat (length fp)))
      | _ => None
      end
  end.

(** The words [inf], [infinity] and [nan], in any case. *)
Definition parse_inf_nan (neg : bool) (l : list ascii) : option PyFloat.t :=
  let w := of_chars (map lower l) in
  if String.eqb w "inf" || String.eqb w "infinity" then Some (S754_infinity neg)
  else if String.eqb w "nan" then Some S754_nan
  else None.

(** [float(s)]. *)
Definition parse_float (s : string) : option PyFloat.t :=
  match drop_underscores false (chars s) with
  | Some l =>
      let '(neg, body) := take_sign (strip l) in
      match parse_decimal neg body with
      | Some f => Some f
      | None => parse_inf_nan neg body
      end
  | None => None
  end.

End PyParse.

(** ** Values, exceptions and the builtins of the handler *)

(** A decoded JSON value: what the framework hands to a handler whose
    parameter is annotated [dict]. *)
#[warnings="-register-all"] Inductive value : Type :=
  | VNone
  | VBool (b : bool)
  | VInt (n : Z)
  | VFloat (f : PyFloat.t)
  | VStr (s : string)
  | VList (l : list value)
  | VDict (d : gmap string value).

(** The classes of the exceptions the pipeline can raise.  All of them
    derive from [Exception]. *)
Inductive exc_class : Type :=
  | KeyError
  | ValueError
  | TypeError
  | OverflowError
  | IndexError
  | OtherException (name : string).

(** An exception instance: its class and its single argument. *)
Record exn : Type := Raise { exn_class : exc_class; exn_arg : string }.

(** [str(e)]: the argument, except for a [KeyError], which shows the
    [repr] of the key. *)
Definition py_str (e : exn) : string :=
  match exn_class e with
  | KeyError => PyStr.repr (exn_arg e)
  | _ => exn_arg e
  end.

(** A computation that returns or raises. *)
Definition result (A : Type) : Type := exn + A.

#[export] Instance result_ret : MRet result := fun _ x => inr x.
#[export] Instance result_bind : MBind result := fun _ _ f m =>
  match m with
  | inl e => inl e
  | inr x => f x
  end.

Definition raise {A : Type} (c : exc_class) (msg : string) : result A :=
  inl (Raise c msg).

(** [type(v).__name__] *)
Definition type_name (v : value) : string :=
  match v with
  | VNone => "NoneType"
  | VBool _ => "bool"
  | VInt _ => "int"
  | VFloat _ => "float"
  | VStr _ => "str"
  | VList _ => "list"
  | VDict _ => "dict"
  end.

(** [d[k]] on a dict. *)
Definition getitem (d : gmap string value) (k : string) : result value :=
  match d !! k with
  | Some v => mret v
  | None => raise KeyError k
  end.

(** [float(v)] *)
Definition py_float (v : value) : result PyFloat.t :=
  match v with
  | VFloat f => mret f
  | VInt n =>
      match PyFloat.of_Z n with
      | S754_infinity _ => raise OverflowError "int too large to convert to float"
      | f => mret f
      end
  | VBool b => mret (PyFloat.of_bool b)
  | VStr s =>
      match PyParse.parse_float s with
      | Some f => mret f
      | None => raise ValueError ("could not convert string to float: " +:+ PyStr.repr s)
      end
  | _ => raise TypeError
           ("float() argument must be a string or a real number, not '"
              +:+ type_name v +:+ "'")
  end.

(** [int(v)].  The text for a string that is no literal shows the first
    200 characters of its [repr]. *)
Definition py_int (v : value) : result Z :=
  match v with
  | VInt n => mret n
  | VBool b => mret (if b then 1 else 0)
  | VFloat f =>
      match f with
      | S754_zero _ => mret 0
      | S754_finite s m e => mret (PyFloat.trunc s m e)
      | S754_nan => raise ValueError "cannot convert float NaN to integer"
      | S754_infinity _ => raise OverflowError "cannot convert float infinity to integer"
      end
  | VStr s =>
      match PyParse.parse_int s with
      | PyParse.IntValue n => mret n
      | PyParse.IntTooLong digits =>
          raise ValueError
            ("Exceeds the limit (" +:+ pretty PyParse.max_str_digits
               +:+ " digits) for integer string conversion: value has "
               +:+ pretty digits
               +:+ " digits; use sys.set_int_max_str_digits() to increase the limit")
      | PyParse.IntInvalid =>
          raise ValueError
            ("invalid literal for int() with base 10: "
               +:+ String.substring 0 200 (PyStr.repr s))
      end
  | _ => raise TypeError
           ("int() argument must be a string, a bytes-like object or a real number, not '"
              +:+ type_name v +:+ "'")
  end.

(** [a[0]] on a one-dimensional array. *)
Definition getitem0 {A : Type} (a : list A) : result A :=
  match a with
  | x :: _ => mret x
  | [] => raise IndexError "index 0 is out of bounds for axis 0 with size 0"
  end.

(** ** The three artifacts *)

(** An entry of the row handed to [np.array]: a Python [float] or an
    integer.  The conversion of the row to one dtype is numpy's and is not
    modelled: the classifier receives the numbers as the handler computed
    them, where the array of the code holds an integer that fits a machine
    word as the nearest binary64. *)
Inductive num : Type :=
  | NFloat (f : PyFloat.t)
  | NInt (n : Z).

(** The classifier: [model.predict] takes a batch of rows and returns the
    predicted class ids, or raises.  The pickled estimator is not part of
    the sources; it is a parameter of the development. *)
Definition Classifier : Type := list (list num) -> result (list Z).

(** Modelled from the spec: the pickled topic encoder, "an immutable
    mapping from topic label (string) to integer code" with "a fixed,
    closed vocabulary".  [topic_codes] is that mapping; what the encoder
    does with a label that is not a string is left open by the spec and is
    the parameter [transform_other]. *)
Record TopicEncoder : Type := {
  topic_codes : gmap string Z;
  transform_other : value -> result Z
}.

(** Modelled from the spec: the pickled level encoder, "an immutable
    mapping from integer class id to level label (string)". *)
Definition LevelEncoder : Type := gmap Z string.

Definition transform_label (enc : TopicEncoder) (y : value) : result Z :=
  match y with
  | VStr s =>
      match topic_codes enc !! s with
      | Some c => mret c
      | None => raise ValueError
                  ("y contains previously unseen labels: " +:+ PyStr.repr s)
      end
  | _ => transform_other enc y
  end.

(** [topic_encoder.transform(ys)] *)
Definition transform (enc : TopicEncoder) (ys : list value) : result (list Z) :=
  mapM (transform_label enc) ys.

Definition inverse_transform_label (enc : LevelEncoder) (c : Z) : result string :=
  match enc !! c with
  | Some l => mret l
  | None => raise ValueError
              ("y contains previously unseen labels: [" +:+ pretty c +:+ "]")
  end.

(** [level_encoder.inverse_transform(cs)] *)
Definition inverse_transform (enc : LevelEncoder) (cs : list Z) : result (list string) :=
  mapM (inverse_transform_label enc) cs.

(** The module-level globals [model], [topic_encoder], [level_encoder]. *)
Record Artifacts : Type := {
  model : Classifier;
  topic_encoder : TopicEncoder;
  level_encoder : LevelEncoder
}.

(** The vocabulary of the topic encoder: the labels it has a code for. *)
Definition topic_vocabulary (g : Artifacts) : gset string :=
  dom (topic_codes (topic_encoder g)).

(** The vocabulary of the level encoder: the labels it decodes to. *)
Definition level_vocabulary (g : Artifacts) (l : string) : Prop :=
  ∃ c, level_encoder g !! c = Some l.

(** ** The handler *)

(** Lines 15-22 of [predict_level]: the four reads and coercions, the
    topic code, and the array [X] of one row. *)
Definition features (g : Artifacts) (data : gmap string value)
    : result (list (list num)) :=
  topic ← getitem data "topic";
  accuracy ← getitem data "accuracy_percent" ≫= py_float;
  avg_time ← getitem data "avg_time_seconds" ≫= py_float;
  attempts ← getitem data "attempts" ≫= py_int;
  topic_encoded ← transform (topic_encoder g) [topic] ≫= getitem0;
  mret [[NFloat accuracy; NFloat avg_time; NInt attempts; NInt topic_encoded]].

(** The body of the [try] block. *)
Definition predict_level_try (g : Artifacts) (data : gmap string value)
    : result (list (string * string)) :=
  X ← features g data;
  prediction ← model g X;
  level ← inverse_transform (level_encoder g) prediction ≫= getitem0;
  mret [("predicted_level", level)].

(** How a handler ends: it returns a body (a dict literal, kept as the
    list of its items), or raises [HTTPException]. *)
Inductive outcome : Type :=
  | Return (body : list (string * string))
  | HTTPException (status_code : Z) (detail : string).

(** [predict_level]: the [try] block under [except Exception as e]. *)
Definition predict_level (g : Artifacts) (data : gmap string value) : outcome :=
  match predict_level_try g data with
  | inr body => Return body
  | inl e => HTTPException 400 (py_str e)
  end.

(** The HTTP response the framework makes of an outcome. *)
Record response : Type := Response { status : Z; json : list (string * string) }.

Definition respond (o : outcome) : response :=
  match o with
  | Return body => Response 200 body
  | HTTPException code detail => Response code [("detail", detail)]
  end.

(** [POST /predict] *)
Definition post_predict (g : Artifacts) (data : gmap string value) : response :=
  respond (predict_level g data).

(** ** Start-up and the serving process *)

(** What [joblib.load] finds under a file name: nothing, bytes that do not
    deserialize (with the exception the attempt raises), or a pickled
    object. *)
Inductive file (A : Type) : Type :=
  | Missing
  | Corrupt (e : exn)
  | Pickled (a : A).
Arguments Missing {A}.
Arguments Corrupt {A} e.
Arguments Pickled {A} a.

(** The working directory, as far as the module reads it. *)
Record disk : Type := {
  coa_model_pkl : file Classifier;
  topic_encoder_pkl : file TopicEncoder;
  level_encoder_pkl : file LevelEncoder
}.

(** [joblib.load(name)] *)
Definition joblib_load {A : Type} (name : string) (f : file A) : result A :=
  match f with
  | Missing => raise (OtherException "FileNotFoundError")
                 ("[Errno 2] No such file or directory: " +:+ PyStr.repr name)
  | Corrupt e => inl e
  | Pickled a => mret a
  end.

(** Lines 8-10: the module body, run once when the module is imported. *)
Definition module_init (d : disk) : result Artifacts :=
  model ← joblib_load "coa_model.pkl" (coa_model_pkl d);
  topic_encoder ← joblib_load "topic_encoder.pkl" (topic_encoder_pkl d);
  level_encoder ← joblib_load "level_encoder.pkl" (level_encoder_pkl d);
  mret {| model := model; topic_encoder := topic_encoder;
          level_encoder := level_encoder |}.

(** The process: dead of an exception of the module body, or serving
    with the globals bound. *)
Inductive process : Type :=
  | Exited (e : exn)
  | Serving (g : Artifacts).

Definition start (d : disk) : process :=
  match module_init d with
  | inl e => Exited e
  | inr g => Serving g
  end.

(** One request.  The handler assigns no global, so the process goes on
    with the globals it had. *)
Definition handle (p : process) (data : gmap string value)
    : process * option response :=
  match p with
  | Serving g => (Serving g, Some (post_predict g data))
  | Exited e => (Exited e, None)
  end.

(** A sequence of requests, one after the other. *)
Fixpoint serve (p : process) (reqs : list (gmap string value))
    : process * list (option response) :=
  match reqs with
  | [] => (p, [])
  | data :: reqs' =>
      let '(p', r) := handle p data in
      let '(p'', rs) := serve p' reqs' in
      (p'', r :: rs)
  end.

(** ** The notions the properties are stated with *)

(** The premises under which the spec calls a payload valid: the four
    keys are present, the topic is a string, and the three numbers coerce
    to [a], [t] and [n]. *)
Definition coerces (data : gmap string value) (s : string)
    (a t : PyFloat.t) (n : Z) : Prop :=
  data !! "topic" = Some (VStr s) ∧
  (∃ v, data !! "accuracy_percent" = Some v ∧ py_float v = inr a) ∧
  (∃ v, data !! "avg_time_seconds" = Some v ∧ py_float v = inr t) ∧
  (∃ v, data !! "attempts" = Some v ∧ py_int v = inr n).

(** Modelled from the spec: the contract of the pickled classifier and of
    the level encoder that goes with it.  The "predict operation ...
    returns exactly one predicted class id per input row" and the level
    encoder is "the exact inverse mapping of the classifier's output
    class-id space": [predict] returns one class id per row of the batch,
    each of them a class id the level encoder decodes. *)
Definition classifier_contract (g : Artifacts) : Prop :=
  ∀ X, ∃ cs, model g X = inr cs ∧ length cs = length X ∧
             Forall (λ c, is_Some (level_encoder g !! c)) cs.

(** The keys the handler reads, in the order it reads them. *)
Definition required_keys : list string :=
  ["topic"; "accuracy_percent"; "avg_time_seconds"; "attempts"].

(** The coercion the handler applies to the value it reads under a key. *)
Definition coercion (k : string) (v : value) : result unit :=
  if decide (k = "accuracy_percent" ∨ k = "avg_time_seconds")
  then _ ← py_float v; mret ()
  else if decide (k = "attempts") then _ ← py_int v; mret ()
  else mret ().

(** The read of key [k] goes through: the key is there and its value
    coerces. *)
Definition read_ok (data : gmap string value) (k : string) : Prop :=
  ∃ v, data !! k = Some v ∧ coercion k v = inr ().

(** The same globals with another classifier bound to [model]. *)
Definition with_model (g : Artifacts) (m : Classifier) : Artifacts :=
  {| model := m; topic_encoder := topic_encoder g;
     level_encoder := level_encoder g |}.

(** A file holds an object [joblib.load] returns. *)
Definition loadable {A : Type} (f : file A) : Prop := ∃ a, f = Pickled a.

(** Two payloads hold the same under each key the handler reads. *)
Definition agree_on_required (data data' : gmap string value) : Prop :=
  ∀ k, k ∈ required_keys → data !! k = data' !! k.

(** The keys whose value the handler coerces to a number. *)
Definition numeric_keys : list string :=
  ["accuracy_percent"; "avg_time_seconds"; "attempts"].

(** A JSON value that is neither a number, a boolean nor a string. *)
Definition not_scalar (v : value) : bool :=
  match v with
  | VNone | VList _ | VDict _ => true
  | _ => false
  end.

(** A class id the level encoder has a label for. *)
Definition decodable (g : Artifacts) (c : Z) : Prop :=
  is_Some (level_encoder g !! c).

(** ** Requests in flight over shared objects *)

(** The three globals as live objects.  [heap] is whatever state they
    hold, [behaviour h] is what their methods return in the state [h], and
    the three [after_] functions give the state a call leaves behind,
    whether it returns or raises. *)
Record Objects : Type := {
  heap : Type;
  behaviour : heap → Artifacts;
  after_transform : heap → list value → heap;
  after_predict : heap → list (list num) → heap;
  after_inverse_transform : heap → list Z → heap
}.


(** Lines 15-18: the four reads and the three coercions.  They touch the
    payload and the locals only. *)
Definition reads (data : gmap string value)
    : result (value * PyFloat.t * PyFloat.t * Z) :=
  topic ← getitem data "topic";
  accuracy ← getitem data "accuracy_percent" ≫= py_float;
  avg_time ← getitem data "avg_time_seconds" ≫= py_float;
  attempts ← getitem data "attempts" ≫= py_int;
  mret (topic, accuracy, avg_time, attempts).

(** A request in flight: where the handler stands, with its locals.  The
    points are those before a use of a global: entry, line 20, line 24,
    line 25, and the end. *)
Inductive thread : Type :=
  | AtRead (data : gmap string value)
  | AtTransform (topic : value) (accuracy avg_time : PyFloat.t) (attempts : Z)
  | AtPredict (X : list (list num))
  | AtDecode (prediction : list Z)
  | Finished (o : outcome).

(** The [except] clause. *)
Definition caught (e : exn) : thread := Finished (HTTPException 400 (py_str e)).

(** One move of a request: it runs up to and including its next call on
    a global, on the objects as they are at that moment. *)
Definition step (O : Objects) (h : heap O) (t : thread) : heap O * thread :=
  match t with
  | AtRead data =>
      (h, match reads data with
          | inl e => caught e
          | inr (topic, accuracy, avg_time, attempts) =>
              AtTransform topic accuracy avg_time attempts
          end)
  | AtTransform topic accuracy avg_time attempts =>
      (after_transform O h [topic],
       match transform (topic_encoder (behaviour O h)) [topic] ≫= getitem0 with
       | inl e => caught e
       | inr topic_encoded =>
           AtPredict [[NFloat accuracy; NFloat avg_time;
                       NInt attempts; NInt topic_encoded]]
       end)
  | AtPredict X =>
      (after_predict O h X,
       match model (behaviour O h) X with
       | inl e => caught e
       | inr prediction => AtDecode prediction
       end)
  | AtDecode prediction =>
      (after_inverse_transform O h prediction,
       match inverse_transform (level_encoder (behaviour O h)) prediction
               ≫= getitem0 with
       | inl e => caught e
       | inr level => Finished (Return [("predicted_level", level)])
       end)
  | Finished o => (h, Finished o)
  end.



(** The scheduler lets the request in slot [i] make one move. *)
Definition schedule_step (O : Objects) (c : heap O * list thread) (i : nat)
    : heap O * list thread :=
  match c.2 !! i with
  | Some t => let '(h', t') := step O c.1 t in (h', <[i := t']> c.2)
  | None => c
  end.

(** The requests [datas] arrive together and are run in the interleaving
    [sched]. *)
Definition run (O : Objects) (h : heap O) (datas : list (gmap string value))
    (sched : list nat) : heap O * list thread :=
  fold_left (schedule_step O) sched (h, map AtRead datas).


(** ** Example artifacts *)

Module Demo.

Definition topics : TopicEncoder :=
  {| topic_codes := {[ "algebra" := 0; "geometry" := 1 ]};
     transform_other := fun v =>
       raise ValueError ("y contains previously unseen labels: " +:+ type_name v) |}.

Definition levels : LevelEncoder :=
  {[ 0 := "advanced"; 1 := "beginner"; 2 := "intermediate" ]}.

Definition at_least (n : Z) (x : num) : bool :=
  match x with
  | NFloat f => SFleb (PyFloat.of_Z n) f
  | NInt k => n <=? k
  end.

(** A decision stump on the accuracy. *)
Definition classify (row : list num) : Z :=
  match row with
  | a :: _ => if at_least 80 a then 0 else if at_least 50 a then 2 else 1
  | [] => 1
  end.

Definition artifacts : Artifacts :=
  {| model := fun X => mret (map classify X);
     topic_encoder := topics;
     level_encoder := levels |}.

(** A classifier that validates its input as estimators commonly do:
    it refuses a row holding a NaN or an infinity. *)
Definition finite_num (x : num) : bool :=
  match x with
  | NFloat f => PyFloat.is_finite f
  | NInt _ => true
  end.

Definition strict : Artifacts :=
  {| model := fun X =>
       if forallb (forallb finite_num) X then mret (map classify X)
       else raise ValueError "Input X contains NaN.";
     topic_encoder := topics;
     level_encoder := levels |}.

(** The first scenario of the spec. *)
Definition request : gmap string value :=
  {[ "topic" := VStr "algebra";
     "accuracy_percent" := VInt 85;
     "avg_time_seconds" := VFloat (S754_finite false 7036874417766400 (-49));
     "attempts" := VInt 2 ]}.

End Demo.

Module Literals.
(** The binary64 nearest to 2.9. *)
Definition two_point_nine : PyFloat.t := S754_finite false 6530219459687219 (-51).
End Literals.

Module Counterexamples.

(** The first scenario without its [attempts] and with an accuracy that
    is not a number. *)
Definition no_attempts_bad_accuracy : gmap string value :=
  {[ "topic" := VStr "algebra";
     "accuracy_percent" := VStr "abc";
     "avg_time_seconds" := VFloat (S754_finite false 7036874417766400 (-49)) ]}.

End Counterexamples.

Module DemoDisk.

(** All three files in place. *)
Definition complete : disk :=
  {| coa_model_pkl := Pickled (model Demo.artifacts);
     topic_encoder_pkl := Pickled Demo.topics;
     level_encoder_pkl := Pickled Demo.levels |}.

(** The topic encoder was not shipped. *)
Definition no_topic_encoder : disk :=
  {| coa_model_pkl := Pickled (model Demo.artifacts);
     topic_encoder_pkl := Missing;
     level_encoder_pkl := Pickled Demo.levels |}.

End DemoDisk.

Module DemoObjects.


(** A classifier that counts its calls and answers by the parity of the
    count. *)
Definition counting : Objects :=
  {| heap := nat;
     behaviour := λ h,
       with_model Demo.artifacts
         (λ X, mret (map (λ _, if Nat.even h then 0 else 1) X));
     after_transform := λ h _, h;
     after_predict := λ h _, S h;
     after_inverse_transform := λ h _, h |}.

End DemoObjects.

(** ** Properties *)

(** Runs the binds whose left side is a value or an exception. *)
Ltac monad := cbn [mbind mret result_bind result_ret] in *.

(** *** The builtins on sample values *)

Example float_of_digits : py_float (VStr "85") = inr (PyFloat.of_Z 85).
Proof. reflexivity. Qed.

Example float_of_blanks_and_underscores :
  py_float (VStr " 1_000.5e1_0 ") = inr (S754_finite false 5122560000000000 (-9)).
Proof. reflexivity. Qed.

Example float_of_tenth :
  py_float (VStr "0.1") = inr (S754_finite false 7205759403792794 (-56)).
Proof. reflexivity. Qed.

Example float_of_nan : py_float (VStr "nan") = inr S754_nan.
Proof. reflexivity. Qed.

Example float_of_large_exponent : py_float (VStr "1e400") = inr (S754_infinity false).
Proof. reflexivity. Qed.

Example float_of_large_int :
  py_float (VInt (2 ^ 1024)) = raise OverflowError "int too large to convert to float".
Proof. reflexivity. Qed.

Example float_of_word :
  py_float (VStr "not-a-number")
    = raise ValueError "could not convert string to float: 'not-a-number'".
Proof. reflexivity. Qed.

Example float_of_none :
  py_float VNone
    = raise TypeError "float() argument must be a string or a real number, not 'NoneType'".
Proof. reflexivity. Qed.

Example int_of_digits : py_int (VStr " -1_2 ") = inr (-12).
Proof. reflexivity. Qed.

Example int_of_fraction_string :
  py_int (VStr "2.9") = raise ValueError "invalid literal for int() with base 10: '2.9'".
Proof. reflexivity. Qed.

Example int_of_negative_fraction :
  py_int (VFloat (SFopp Literals.two_point_nine)) = inr (-2).
Proof. reflexivity. Qed.

Example int_of_long_digits :
  py_int (VStr (PyStr.of_chars (repeat "1"%char 4301)))
    = raise ValueError
        ("Exceeds the limit (4300 digits) for integer string conversion: "
           +:+ "value has 4301 digits; "
           +:+ "use sys.set_int_max_str_digits() to increase the limit").
Proof. by vm_compute. Qed.

Example int_of_long_word :
  ∃ msg, py_int (VStr (PyStr.of_chars (repeat "x"%char 300)))
           = raise ValueError msg ∧
         String.length msg = 240%nat.
Proof. eexists. split; [reflexivity | by vm_compute]. Qed.

Example int_of_nan :
  py_int (VFloat S754_nan) = raise ValueError "cannot convert float NaN to integer".
Proof. reflexivity. Qed.

(** *** The scenarios of the spec on the example artifacts *)

Example scenario_valid :
  post_predict Demo.artifacts Demo.request
    = Response 200 [("predicted_level", "advanced")].
Proof. reflexivity. Qed.

Example scenario_missing_attempts :
  post_predict Demo.artifacts (delete "attempts" Demo.request)
    = Response 400 [("detail", "'attempts'")].
Proof. reflexivity. Qed.

Example scenario_unknown_topic :
  post_predict Demo.artifacts (<["topic" := VStr "quantum_foo"]> Demo.request)
    = Response 400
        [("detail", "y contains previously unseen labels: 'quantum_foo'")].
Proof. reflexivity. Qed.

Example scenario_not_a_number :
  post_predict Demo.artifacts
    (<["accuracy_percent" := VStr "not-a-number"]> Demo.request)
    = Response 400
        [("detail", "could not convert string to float: 'not-a-number'")].
Proof. reflexivity. Qed.

(** An exception of the classifier itself takes the same way out. *)
Example scenario_model_error :
  post_predict Demo.strict (<["accuracy_percent" := VStr "nan"]> Demo.request)
    = Response 400 [("detail", "Input X contains NaN.")].
Proof. reflexivity. Qed.

(** *** The handler *)

Section Handler.
Variable g : Artifacts.
Implicit Types (data : gmap string value) (v : value) (e : exn).

(** With the four keys present the reads go through and the coercions
    run in the order of the source. *)
Lemma features_present data topic v1 v2 v3 :
  data !! "topic" = Some topic →
  data !! "accuracy_percent" = Some v1 →
  data !! "avg_time_seconds" = Some v2 →
  data !! "attempts" = Some v3 →
  features g data =
    (accuracy ← py_float v1; avg_time ← py_float v2; attempts ← py_int v3;
     topic_encoded ← transform_label (topic_encoder g) topic;
     mret [[NFloat accuracy; NFloat avg_time; NInt attempts; NInt topic_encoded]]).
Proof.
  intros H0 H1 H2 H3. unfold features, getitem. rewrite H0, H1, H2, H3. simpl.
  destruct (py_float v1); simpl; [done|].
  destruct (py_float v2); simpl; [done|].
  destruct (py_int v3); simpl; [done|].
  destruct (transform_label _ topic); done.
Qed.

Lemma transform_label_known s :
  s ∈ topic_vocabulary g →
  ∃ k, topic_codes (topic_encoder g) !! s = Some k ∧
       transform_label (topic_encoder g) (VStr s) = inr k.
Proof.
  unfold topic_vocabulary. rewrite elem_of_dom. intros [k Hk].
  exists k. split; [done|]. simpl. by rewrite Hk.
Qed.

Lemma transform_label_unknown s :
  s ∉ topic_vocabulary g →
  transform_label (topic_encoder g) (VStr s) =
    raise ValueError ("y contains previously unseen labels: " +:+ PyStr.repr s).
Proof.
  unfold topic_vocabulary. rewrite not_elem_of_dom. intros Hk.
  simpl. by rewrite Hk.
Qed.

Lemma features_coerces data s a t n k :
  coerces data s a t n →
  topic_codes (topic_encoder g) !! s = Some k →
  features g data = inr [[NFloat a; NFloat t; NInt n; NInt k]].
Proof.
  intros (Ht & (v1 & H1 & Ha) & (v2 & H2 & Hb) & (v3 & H3 & Hn)) Hk.
  rewrite (features_present _ _ _ _ _ Ht H1 H2 H3), Ha, Hb, Hn.
  simpl. by rewrite Hk.
Qed.

(** The [except] clause: an exception of the [try] block becomes a 400
    carrying its text. *)
Lemma post_predict_raise data e :
  predict_level_try g data = inl e →
  post_predict g data = Response 400 [("detail", py_str e)].
Proof. intros H. unfold post_predict, predict_level. by rewrite H. Qed.

Lemma post_predict_return data body :
  predict_level_try g data = inr body →
  post_predict g data = Response 200 body.
Proof. intros H. unfold post_predict, predict_level. by rewrite H. Qed.

Lemma try_features_raise data e :
  features g data = inl e → predict_level_try g data = inl e.
Proof. intros H. unfold predict_level_try. by rewrite H. Qed.

(** The [try] block after the array is built: one row in, one class id
    out, one label. *)
Lemma try_single_row data x c l :
  features g data = inr [x] →
  model g [x] = inr [c] →
  level_encoder g !! c = Some l →
  predict_level_try g data = inr [("predicted_level", l)].
Proof.
  intros HX Hm Hl. unfold predict_level_try. rewrite HX. simpl.
  rewrite Hm. simpl. unfold inverse_transform_label. by rewrite Hl.
Qed.

Lemma contract_single_row x :
  classifier_contract g →
  ∃ c l, model g [x] = inr [c] ∧ level_encoder g !! c = Some l.
Proof.
  intros Hc. destruct (Hc [x]) as (cs & Hm & Hlen & Hall).
  destruct cs as [|c [|c' cs]]; simpl in Hlen; try lia.
  apply Forall_cons in Hall as [[l Hl] _]. by exists c, l.
Qed.

Lemma status_200_or_400 data :
  status (post_predict g data) = 200 ∨ status (post_predict g data) = 400.
Proof.
  unfold post_predict, predict_level.
  destruct (predict_level_try g data); simpl; auto.
Qed.

End Handler.

Lemma demo_contract : classifier_contract Demo.artifacts.
Proof.
  intros X. exists (map Demo.classify X). split; [done|].
  split; [by rewrite length_map|].
  apply Forall_forall. intros c Hc. apply list_elem_of_In, in_map_iff in Hc.
  destruct Hc as (row & <- & _). unfold Demo.classify.
  destruct row as [|a row]; [by eexists|].
  destruct (Demo.at_least 80 a); [by eexists|].
  destruct (Demo.at_least 50 a); by eexists.
Qed.

Lemma demo_coerces :
  coerces Demo.request "algebra" (PyFloat.of_Z 85)
    (S754_finite false 7036874417766400 (-49)) 2.
Proof.
  split; [done|]. split; [by eexists|]. split; by eexists.
Qed.

Lemma demo_topic : "algebra" ∈ topic_vocabulary Demo.artifacts.
Proof. apply elem_of_dom. by eexists. Qed.

(** A valid payload under artifacts that keep the contract is answered
    with a 200. *)
Lemma coerces_status_200 (g : Artifacts) (data : gmap string value)
    (s : string) (a t : PyFloat.t) (n : Z) :
  classifier_contract g →
  coerces data s a t n →
  s ∈ topic_vocabulary g →
  status (post_predict g data) = 200.
Proof.
  intros Hc Hv Hs.
  destruct (transform_label_known g s Hs) as (k & Hk & _).
  destruct (contract_single_row g [NFloat a; NFloat t; NInt n; NInt k] Hc)
    as (c & l & Hm & Hl).
  rewrite (post_predict_return g data [("predicted_level", l)]); [done|].
  eapply try_single_row; [|done..]. by eapply features_coerces.
Qed.

(** C1.  A payload whose four keys are present, whose accuracy and time
    coerce to floats, whose attempts coerce to an integer and whose topic
    is in the topic encoder's vocabulary is answered with status 200 and
    the body [{"predicted_level": level}], where [level] is a label of the
    level encoder's vocabulary; the artifacts are assumed to keep the
    serving contract. *)
Theorem valid_payload_predicts (g : Artifacts) (data : gmap string value)
    (s : string) (a t : PyFloat.t) (n : Z) :
  classifier_contract g →
  coerces data s a t n →
  s ∈ topic_vocabulary g →
  ∃ level, post_predict g data = Response 200 [("predicted_level", level)] ∧
           level_vocabulary g level.
Proof.
  intros Hc Hv Hs.
  destruct (transform_label_known g s Hs) as (k & Hk & _).
  pose proof (features_coerces g data s a t n k Hv Hk) as HX.
  destruct (contract_single_row g [NFloat a; NFloat t; NInt n; NInt k] Hc)
    as (c & l & Hm & Hl).
  exists l. split; [|by exists c].
  apply post_predict_return. by eapply try_single_row.
Qed.

Lemma valid_payload_predicts_witness :
  ∃ level,
    post_predict Demo.artifacts Demo.request
      = Response 200 [("predicted_level", level)] ∧
    level_vocabulary Demo.artifacts level.
Proof.
  exact (valid_payload_predicts Demo.artifacts Demo.request "algebra" _ _ 2
           demo_contract demo_coerces demo_topic).
Defined.

(** C2.  Every call ends in one of two ways: the [try] block returns and
    the answer is a 200 carrying its body, or it raises some exception [e]
    and the answer is a 400 whose detail is [str(e)].  The exception of
    the [try] block is that of the first stage that fails, whichever it
    is: the feature stage (missing field, bad type, unknown topic), the
    classifier, or the level decoding. *)
Theorem failures_become_400 (g : Artifacts) (data : gmap string value) :
  ((∃ level, predict_level_try g data = inr [("predicted_level", level)] ∧
             post_predict g data = Response 200 [("predicted_level", level)]) ∨
   (∃ e, predict_level_try g data = inl e ∧
         post_predict g data = Response 400 [("detail", py_str e)])) ∧
  predict_level_try g data =
    match features g data with
    | inl e => inl e
    | inr X =>
        match model g X with
        | inl e => inl e
        | inr cs =>
            match inverse_transform (level_encoder g) cs ≫= getitem0 with
            | inl e => inl e
            | inr level => inr [("predicted_level", level)]
            end
        end
    end.
Proof.
  assert (predict_level_try g data =
    match features g data with
    | inl e => inl e
    | inr X =>
        match model g X with
        | inl e => inl e
        | inr cs =>
            match inverse_transform (level_encoder g) cs ≫= getitem0 with
            | inl e => inl e
            | inr level => inr [("predicted_level", level)]
            end
        end
    end) as Hstages.
  { unfold predict_level_try.
    destruct (features g data) as [|X]; [done|]. simpl.
    destruct (model g X) as [|cs]; [done|]. simpl.
    by destruct (inverse_transform (level_encoder g) cs ≫= getitem0). }
  split; [|done].
  destruct (predict_level_try g data) as [e|body] eqn:Htry.
  - right. exists e. split; [done|]. by apply post_predict_raise.
  - left.
    assert (∃ level, body = [("predicted_level", level)]) as [level ->].
    { destruct (features g data) as [|X]; [done|].
      destruct (model g X) as [|cs]; [done|].
      destruct (inverse_transform (level_encoder g) cs ≫= getitem0)
        as [|level]; [done|].
      exists level. congruence. }
    exists level. split; [done|]. by apply post_predict_return.
Qed.

Section Rejections.
Variable g : Artifacts.
Implicit Types (data : gmap string value) (v : value) (e : exn).

(** When the feature stage returns, every read and every coercion of
    the source went through. *)
Lemma features_inr data X :
  features g data = inr X →
  ∃ topic v1 v2 v3 a t n k,
    data !! "topic" = Some topic ∧
    data !! "accuracy_percent" = Some v1 ∧ py_float v1 = inr a ∧
    data !! "avg_time_seconds" = Some v2 ∧ py_float v2 = inr t ∧
    data !! "attempts" = Some v3 ∧ py_int v3 = inr n ∧
    transform_label (topic_encoder g) topic = inr k ∧
    X = [[NFloat a; NFloat t; NInt n; NInt k]].
Proof.
  unfold features, getitem.
  destruct (data !! "topic") as [topic|]; [|done].
  destruct (data !! "accuracy_percent") as [v1|]; [|done].
  destruct (data !! "avg_time_seconds") as [v2|];
    [|simpl; by destruct (py_float v1)].
  destruct (data !! "attempts") as [v3|];
    [|simpl; destruct (py_float v1); [done|]; simpl; by destruct (py_float v2)].
  simpl.
  destruct (py_float v1) as [|a] eqn:Ha; [done|]. simpl.
  destruct (py_float v2) as [|t] eqn:Ht; [done|]. simpl.
  destruct (py_int v3) as [|n] eqn:Hn; [done|]. simpl.
  destruct (transform_label (topic_encoder g) topic) as [|k] eqn:Hk; [done|].
  simpl. intros [= <-]. by exists topic, v1, v2, v3, a, t, n, k.
Qed.

(** A request whose feature stage raises is answered with a 400. *)
Lemma features_raise_400 data :
  (∀ X, features g data ≠ inr X) → status (post_predict g data) = 400.
Proof.
  intros H. unfold post_predict, predict_level, predict_level_try.
  destruct (features g data) as [e|X]; [done|]. by destruct (H X).
Qed.

(** A coercion that raises on a value that is present ends the request
    in a 400, whatever the other fields are. *)
Lemma accuracy_raises_400 data v e :
  data !! "accuracy_percent" = Some v → py_float v = inl e →
  status (post_predict g data) = 400.
Proof.
  intros Hv He. apply features_raise_400. intros X HX.
  destruct (features_inr data X HX)
    as (topic & v1 & v2 & v3 & a & t & n & c & _ & H1 & Ha & _).
  congruence.
Qed.

Lemma avg_time_raises_400 data v e :
  data !! "avg_time_seconds" = Some v → py_float v = inl e →
  status (post_predict g data) = 400.
Proof.
  intros Hv He. apply features_raise_400. intros X HX.
  destruct (features_inr data X HX)
    as (topic & v1 & v2 & v3 & a & t & n & c & _ & _ & _ & H2 & Ht & _).
  congruence.
Qed.

Lemma attempts_raises_400 data v e :
  data !! "attempts" = Some v → py_int v = inl e →
  status (post_predict g data) = 400.
Proof.
  intros Hv He. apply features_raise_400. intros X HX.
  destruct (features_inr data X HX)
    as (topic & v1 & v2 & v3 & a & t & n & c &
        _ & _ & _ & _ & _ & H3 & Hn & _).
  congruence.
Qed.

End Rejections.

(** C3, as stated, fails: a payload that misses [attempts] and whose
    accuracy is not a number is answered with the text of the coercion
    error, which was raised first and does not mention [attempts]. *)
Lemma missing_key_not_always_mentioned :
  ¬ (∀ (g : Artifacts) (data : gmap string value) (k : string),
       k ∈ required_keys → data !! k = None →
       ∃ detail, post_predict g data = Response 400 [("detail", detail)] ∧
                 PyStr.contains k detail = true).
Proof.
  intros H.
  destruct (H Demo.artifacts Counterexamples.no_attempts_bad_accuracy "attempts")
    as (detail & Hr & Hc).
  - set_solver.
  - done.
  - vm_compute in Hr. injection Hr as <-. vm_compute in Hc. discriminate.
Qed.

(** C3, amended.  A payload that misses one of the four keys is answered
    with a 400; when every key read before the missing one is present
    with a value that coerces, the detail is the [repr] of the missing
    key, which mentions it. *)
Theorem missing_key_400 (g : Artifacts) (data : gmap string value) (k : string) :
  k ∈ required_keys → data !! k = None →
  status (post_predict g data) = 400 ∧
  ∀ before after,
    required_keys = (before ++ k :: after)%list →
    Forall (read_ok data) before →
    post_predict g data = Response 400 [("detail", PyStr.repr k)] ∧
    PyStr.contains k (PyStr.repr k) = true.
Proof.
  intros Hk Hnone. split.
  - apply features_raise_400. intros X HX.
    destruct (features_inr g data X HX)
      as (topic & v1 & v2 & v3 & a & t & n & c & H0 & H1 & _ & H2 & _ & H3 & _).
    unfold required_keys in Hk.
    repeat (apply elem_of_cons in Hk as [->|Hk]; [congruence|]).
    by apply elem_of_nil in Hk.
  - intros before after Hsplit Hbefore.
    unfold required_keys in Hsplit.
    assert (features g data = raise KeyError k) as HX.
    { unfold features, getitem.
      destruct before as [|k0 before]; simplify_eq/=.
      { by rewrite Hnone. }
      apply Forall_cons in Hbefore as [(v0 & -> & _) Hbefore].
      destruct before as [|k1 before]; simplify_eq/=.
      { by rewrite Hnone. }
      apply Forall_cons in Hbefore as [(v1 & -> & Hv1) Hbefore].
      unfold coercion in Hv1. simpl in Hv1. monad.
      destruct (py_float v1) as [|a]; [done|]. monad.
      destruct before as [|k2 before]; simplify_eq/=.
      { by rewrite Hnone. }
      apply Forall_cons in Hbefore as [(v2 & -> & Hv2) Hbefore].
      unfold coercion in Hv2. simpl in Hv2. monad.
      destruct (py_float v2) as [|t]; [done|]. monad.
      destruct before as [|k3 before]; simplify_eq/=.
      { by rewrite Hnone. }
      destruct before; simplify_eq/=. }
    split.
    + by apply (post_predict_raise g data (Raise KeyError k)), try_features_raise.
    + repeat (apply elem_of_cons in Hk as [->|Hk]; [by vm_compute|]).
      by apply elem_of_nil in Hk.
Qed.

Lemma missing_key_400_witness :
  status (post_predict Demo.artifacts (delete "attempts" Demo.request)) = 400 ∧
  post_predict Demo.artifacts (delete "attempts" Demo.request)
    = Response 400 [("detail", "'attempts'")].
Proof.
  assert ("attempts" ∈ required_keys) as Hk by (unfold required_keys; set_solver).
  assert (delete "attempts" Demo.request !! "attempts" = None) as Hnone
    by reflexivity.
  destruct (missing_key_400 Demo.artifacts (delete "attempts" Demo.request)
              "attempts" Hk Hnone) as [H400 Hdetail].
  split; [exact H400|].
  apply (Hdetail ["topic"; "accuracy_percent"; "avg_time_seconds"] []);
    [reflexivity|].
  repeat (apply Forall_cons; split; [eexists; split; reflexivity|]).
  apply Forall_nil_2.
Defined.

(** C4.  A payload whose [accuracy_percent] or [avg_time_seconds] is
    present with a value [float] raises on, or whose [attempts] is present
    with a value [int] raises on, is answered with a 400. *)
Theorem bad_number_400 (g : Artifacts) (data : gmap string value) :
  (∃ v e, data !! "accuracy_percent" = Some v ∧ py_float v = inl e) ∨
  (∃ v e, data !! "avg_time_seconds" = Some v ∧ py_float v = inl e) ∨
  (∃ v e, data !! "attempts" = Some v ∧ py_int v = inl e) →
  status (post_predict g data) = 400.
Proof.
  intros [(v & e & Hv & He)|[(v & e & Hv & He)|(v & e & Hv & He)]].
  - by eapply accuracy_raises_400.
  - by eapply avg_time_raises_400.
  - by eapply attempts_raises_400.
Qed.

Lemma bad_number_400_witness :
  status (post_predict Demo.artifacts
            (<["accuracy_percent" := VStr "not-a-number"]> Demo.request)) = 400.
Proof.
  apply bad_number_400. left.
  exists (VStr "not-a-number"), (Raise ValueError
     "could not convert string to float: 'not-a-number'").
  split; reflexivity.
Defined.

(** C5.  A payload whose topic is a string outside the topic encoder's
    vocabulary is answered with a 400. *)
Theorem unknown_topic_400 (g : Artifacts) (data : gmap string value) (s : string) :
  data !! "topic" = Some (VStr s) →
  s ∉ topic_vocabulary g →
  status (post_predict g data) = 400.
Proof.
  intros Hs Hunknown. apply features_raise_400. intros X HX.
  destruct (features_inr g data X HX)
    as (topic & v1 & v2 & v3 & a & t & n & c & H0 & _ & _ & _ & _ & _ & _ & Hk & _).
  rewrite Hs in H0. injection H0 as <-.
  by rewrite (transform_label_unknown g s Hunknown) in Hk.
Qed.

Lemma unknown_topic_400_witness :
  status (post_predict Demo.artifacts
            (<["topic" := VStr "quantum_foo"]> Demo.request)) = 400.
Proof.
  apply (unknown_topic_400 _ _ "quantum_foo"); [reflexivity|].
  apply not_elem_of_dom. reflexivity.
Defined.

(** C6.  For a valid payload the array built is the single row
    [[accuracy; avg_time; attempts; topic_encoded]] in this order, the
    classifier is consulted on this one-row batch and on nothing else (the
    answer is the same under any classifier that agrees with the loaded
    one on this batch), it yields one class id, and the answer wraps the
    label the level encoder decodes it to as [predicted_level]. *)
Theorem feature_order (g : Artifacts) (data : gmap string value)
    (s : string) (a t : PyFloat.t) (n : Z) :
  classifier_contract g →
  coerces data s a t n →
  s ∈ topic_vocabulary g →
  ∃ k c level,
    topic_codes (topic_encoder g) !! s = Some k ∧
    features g data = inr [[NFloat a; NFloat t; NInt n; NInt k]] ∧
    model g [[NFloat a; NFloat t; NInt n; NInt k]] = inr [c] ∧
    level_encoder g !! c = Some level ∧
    post_predict g data = Response 200 [("predicted_level", level)] ∧
    ∀ m : Classifier,
      m [[NFloat a; NFloat t; NInt n; NInt k]]
        = model g [[NFloat a; NFloat t; NInt n; NInt k]] →
      post_predict (with_model g m) data = post_predict g data.
Proof.
  intros Hc Hv Hs.
  destruct (transform_label_known g s Hs) as (k & Hk & _).
  pose proof (features_coerces g data s a t n k Hv Hk) as HX.
  destruct (contract_single_row g [NFloat a; NFloat t; NInt n; NInt k] Hc)
    as (c & l & Hm & Hl).
  exists k, c, l. repeat split; try done.
  - apply post_predict_return. by eapply try_single_row.
  - intros m Hagree.
    pose proof (features_coerces (with_model g m) data s a t n k Hv Hk) as HX'.
    unfold post_predict, predict_level, predict_level_try.
    rewrite HX, HX'. monad. simpl. by rewrite Hagree.
Qed.

Lemma feature_order_witness :
  ∃ k c level,
    topic_codes Demo.topics !! "algebra" = Some k ∧
    features Demo.artifacts Demo.request
      = inr [[NFloat (PyFloat.of_Z 85);
              NFloat (S754_finite false 7036874417766400 (-49));
              NInt 2; NInt k]] ∧
    model Demo.artifacts
      [[NFloat (PyFloat.of_Z 85);
        NFloat (S754_finite false 7036874417766400 (-49));
        NInt 2; NInt k]] = inr [c] ∧
    Demo.levels !! c = Some level ∧
    post_predict Demo.artifacts Demo.request
      = Response 200 [("predicted_level", level)].
Proof.
  destruct (feature_order Demo.artifacts Demo.request "algebra" _ _ 2
              demo_contract demo_coerces demo_topic)
    as (k & c & level & H1 & H2 & H3 & H4 & H5 & _).
  by exists k, c, level.
Defined.

Section Process.
Implicit Types (p : process) (reqs : list (gmap string value)).

Lemma serve_serving g reqs :
  serve (Serving g) reqs = (Serving g, map (λ data, Some (post_predict g data)) reqs).
Proof.
  induction reqs as [|data reqs IH]; [done|]. simpl. by rewrite IH.
Qed.

Lemma serve_exited e reqs :
  serve (Exited e) reqs = (Exited e, map (λ _, None) reqs).
Proof.
  induction reqs as [|data reqs IH]; [done|]. simpl. by rewrite IH.
Qed.

End Process.


Section Moves.
Variable O : Objects.
Implicit Types (h : heap O) (t : thread) (data : gmap string value) (n : nat).










End Moves.





(** The assumption on the artifacts is needed: with a classifier that
    counts its calls, the same payload sent twice is answered in two
    ways. *)
Example hidden_state_would_show :
  (run DemoObjects.counting 0%nat [Demo.request; Demo.request]
     [0; 0; 0; 0; 1; 1; 1; 1]%nat).2
    = [Finished (Return [("predicted_level", "advanced")]);
       Finished (Return [("predicted_level", "beginner")])].
Proof. reflexivity. Qed.

(** C8.  When one of the three files is missing or corrupt the process
    exits with an exception during the module body and no request is ever
    answered.  When the three of them load, the process serves, and every
    request of every sequence is answered and leaves it serving: no
    failure of a request ends the process. *)
Theorem startup_all_or_nothing (d : disk) :
  (¬ loadable (coa_model_pkl d) ∨ ¬ loadable (topic_encoder_pkl d) ∨
   ¬ loadable (level_encoder_pkl d) →
   ∃ e, start d = Exited e ∧
        ∀ reqs, serve (start d) reqs = (Exited e, map (λ _, None) reqs)) ∧
  (∀ m te le,
     coa_model_pkl d = Pickled m → topic_encoder_pkl d = Pickled te →
     level_encoder_pkl d = Pickled le →
     let g := {| model := m; topic_encoder := te; level_encoder := le |} in
     start d = Serving g ∧
     ∀ reqs, serve (start d) reqs
             = (Serving g, map (λ data, Some (post_predict g data)) reqs)).
Proof.
  split.
  - intros Hbad.
    assert (∃ e, start d = Exited e) as [e He].
    { unfold start, module_init.
      destruct (coa_model_pkl d) as [|e1|m]; simpl; [by eexists..|].
      destruct (topic_encoder_pkl d) as [|e2|te]; simpl; [by eexists..|].
      destruct (level_encoder_pkl d) as [|e3|le]; simpl; [by eexists..|].
      destruct Hbad as [H|[H|H]]; destruct H; by eexists. }
    exists e. split; [done|]. intros reqs. rewrite He. apply serve_exited.
  - intros m te le Hm Hte Hle g.
    assert (start d = Serving g) as Hs.
    { unfold start, module_init. by rewrite Hm, Hte, Hle. }
    split; [done|]. intros reqs. rewrite Hs. apply serve_serving.
Qed.

Lemma startup_all_or_nothing_witness :
  (∃ e, start DemoDisk.no_topic_encoder = Exited e ∧
        serve (start DemoDisk.no_topic_encoder) [Demo.request]
          = (Exited e, [None])) ∧
  serve (start DemoDisk.complete) [Demo.request]
    = (Serving Demo.artifacts, [Some (post_predict Demo.artifacts Demo.request)]).
Proof.
  split.
  - destruct (proj1 (startup_all_or_nothing DemoDisk.no_topic_encoder))
      as (e & He & Hserve).
    + right; left. intros [a Ha]. discriminate Ha.
    + exists e. split; [exact He|]. exact (Hserve [Demo.request]).
  - destruct (proj2 (startup_all_or_nothing DemoDisk.complete)
                _ _ _ eq_refl eq_refl eq_refl) as [_ Hserve].
    exact (Hserve [Demo.request]).
Defined.

Section Replacing.
Variables (g : Artifacts) (data : gmap string value).
Variables (s : string) (a t : PyFloat.t) (n : Z).
Hypothesis Hcoerces : coerces data s a t n.

(** Replacing one number of a valid payload by a value that coerces
    leaves a valid payload. *)
Lemma coerces_accuracy v a' :
  py_float v = inr a' → coerces (<["accuracy_percent" := v]> data) s a' t n.
Proof.
  destruct Hcoerces as (H0 & _ & H2 & H3). intros Hv.
  repeat split; rewrite ?lookup_insert_ne by done; try done.
  exists v. by rewrite lookup_insert_eq.
Qed.

Lemma coerces_avg_time v t' :
  py_float v = inr t' → coerces (<["avg_time_seconds" := v]> data) s a t' n.
Proof.
  destruct Hcoerces as (H0 & H1 & _ & H3). intros Hv.
  repeat split; rewrite ?lookup_insert_ne by done; try done.
  exists v. by rewrite lookup_insert_eq.
Qed.

Lemma coerces_attempts v n' :
  py_int v = inr n' → coerces (<["attempts" := v]> data) s a t n'.
Proof.
  destruct Hcoerces as (H0 & H1 & H2 & _). intros Hv.
  repeat split; rewrite ?lookup_insert_ne by done; try done.
  exists v. by rewrite lookup_insert_eq.
Qed.

End Replacing.

(** A status that follows the result of a coercion is 400 exactly when
    the coercion raises. *)
Lemma status_400_iff {A : Type} (r : result A) (st : Z) :
  match r with inr _ => st = 200 | inl _ => st = 400 end →
  st = 400 ↔ ∃ e, r = inl e.
Proof.
  destruct r as [e|x]; intros Hst; split.
  - by exists e.
  - done.
  - intros H400. rewrite Hst in H400. done.
  - by intros [e He].
Qed.

Section Acceptance.
Variables (g : Artifacts) (data : gmap string value).
Variables (s : string) (a t : PyFloat.t) (n : Z).
Hypothesis Hcontract : classifier_contract g.
Hypothesis Hcoerces : coerces data s a t n.
Hypothesis Htopic : s ∈ topic_vocabulary g.

Lemma accuracy_status v :
  match py_float v with
  | inr _ => status (post_predict g (<["accuracy_percent" := v]> data)) = 200
  | inl _ => status (post_predict g (<["accuracy_percent" := v]> data)) = 400
  end.
Proof.
  destruct (py_float v) as [e|a'] eqn:Hv.
  - apply (accuracy_raises_400 g _ v e); [by rewrite lookup_insert_eq|done].
  - apply (coerces_status_200 g _ s a' t n); [done| |done].
    by apply (coerces_accuracy data s a t n).
Qed.

Lemma avg_time_status v :
  match py_float v with
  | inr _ => status (post_predict g (<["avg_time_seconds" := v]> data)) = 200
  | inl _ => status (post_predict g (<["avg_time_seconds" := v]> data)) = 400
  end.
Proof.
  destruct (py_float v) as [e|t'] eqn:Hv.
  - apply (avg_time_raises_400 g _ v e); [by rewrite lookup_insert_eq|done].
  - apply (coerces_status_200 g _ s a t' n); [done| |done].
    by apply (coerces_avg_time data s a t n).
Qed.

Lemma attempts_status v :
  match py_int v with
  | inr _ => status (post_predict g (<["attempts" := v]> data)) = 200
  | inl _ => status (post_predict g (<["attempts" := v]> data)) = 400
  end.
Proof.
  destruct (py_int v) as [e|n'] eqn:Hv.
  - apply (attempts_raises_400 g _ v e); [by rewrite lookup_insert_eq|done].
  - apply (coerces_status_200 g _ s a t n'); [done| |done].
    by apply (coerces_attempts data s a t n).
Qed.

End Acceptance.

(** C9.  In an otherwise valid payload, a string under [accuracy_percent]
    or [avg_time_seconds] that [float] parses, or a string under
    [attempts] that [int] parses, is accepted and the request is answered
    with a 200; and a value put under one of the three keys is answered
    with a 400 exactly when [float], respectively [int], raises on it. *)
Theorem numeric_strings_accepted (g : Artifacts) (data : gmap string value)
    (s : string) (a t : PyFloat.t) (n : Z) :
  classifier_contract g →
  coerces data s a t n →
  s ∈ topic_vocabulary g →
  (∀ x f, py_float (VStr x) = inr f →
     status (post_predict g (<["accuracy_percent" := VStr x]> data)) = 200 ∧
     status (post_predict g (<["avg_time_seconds" := VStr x]> data)) = 200) ∧
  (∀ x z, py_int (VStr x) = inr z →
     status (post_predict g (<["attempts" := VStr x]> data)) = 200) ∧
  (∀ v, status (post_predict g (<["accuracy_percent" := v]> data)) = 400
        ↔ ∃ e, py_float v = inl e) ∧
  (∀ v, status (post_predict g (<["avg_time_seconds" := v]> data)) = 400
        ↔ ∃ e, py_float v = inl e) ∧
  (∀ v, status (post_predict g (<["attempts" := v]> data)) = 400
        ↔ ∃ e, py_int v = inl e).
Proof.
  intros Hc Hv Hs.
  pose proof (accuracy_status g data s a t n Hc Hv Hs) as Hacc.
  pose proof (avg_time_status g data s a t n Hc Hv Hs) as Havg.
  pose proof (attempts_status g data s a t n Hc Hv Hs) as Hatt.
  split; [|split; [|split; [|split]]].
  - intros x f Hx. split.
    + specialize (Hacc (VStr x)). by rewrite Hx in Hacc.
    + specialize (Havg (VStr x)). by rewrite Hx in Havg.
  - intros x z Hx. specialize (Hatt (VStr x)). by rewrite Hx in Hatt.
  - intros v. apply status_400_iff, Hacc.
  - intros v. apply status_400_iff, Havg.
  - intros v. apply status_400_iff, Hatt.
Qed.

Lemma numeric_strings_accepted_witness :
  status (post_predict Demo.artifacts
            (<["accuracy_percent" := VStr "85"]> Demo.request)) = 200 ∧
  status (post_predict Demo.artifacts
            (<["attempts" := VStr "2"]> Demo.request)) = 200 ∧
  status (post_predict Demo.artifacts
            (<["attempts" := VStr "two"]> Demo.request)) = 400.
Proof.
  destruct (numeric_strings_accepted Demo.artifacts Demo.request "algebra" _ _ 2
              demo_contract demo_coerces demo_topic)
    as (Hfloat & Hint & _ & _ & Hiff).
  split; [exact (proj1 (Hfloat "85" (PyFloat.of_Z 85) eq_refl))|].
  split; [exact (Hint "2" 2 eq_refl)|].
  apply Hiff. eexists. reflexivity.
Defined.

(** [int] of a finite float is the quotient, rounded toward zero, of its
    value [(-1)^s * m * 2^e] written as a fraction of integers. *)
Lemma trunc_toward_zero (sg : bool) (m : positive) (e : Z) :
  PyFloat.trunc sg m e =
    Z.quot (cond_Zopp sg (Zpos m) * 2 ^ Z.max e 0) (2 ^ Z.max (- e) 0).
Proof.
  unfold PyFloat.trunc. destruct (Z.leb_spec 0 e) as [He|He].
  - rewrite (Z.max_l e 0), (Z.max_r (- e) 0) by lia.
    rewrite Z.shiftl_mul_pow2 by lia. simpl (2 ^ 0). rewrite Z.quot_1_r.
    destruct sg; simpl; lia.
  - rewrite (Z.max_r e 0), (Z.max_l (- e) 0) by lia.
    rewrite Z.shiftr_div_pow2 by lia. simpl (2 ^ 0). rewrite Z.mul_1_r.
    assert (0 < 2 ^ (- e)) as Hpos by (apply Z.pow_pos_nonneg; lia).
    destruct sg; simpl cond_Zopp.
    + change (Z.neg m) with (- Z.pos m). rewrite Z.quot_opp_l by lia.
      rewrite Z.quot_div_nonneg by lia. done.
    + rewrite Z.quot_div_nonneg by lia. done.
Qed.

(** C10.  A finite float under [attempts] is not rejected: [int] rounds
    it toward zero, the row carries the rounded integer, the request is
    answered with a 200 and the answer is the one the rounded integer
    itself would get.  For 2.9 the integer is 2, while the string ["2.9"]
    under [attempts] is answered with a 400. *)
Theorem fractional_attempts_truncated (g : Artifacts) (data : gmap string value)
    (s : string) (a t : PyFloat.t) (n : Z) (sg : bool) (m : positive) (e : Z) :
  classifier_contract g →
  coerces data s a t n →
  s ∈ topic_vocabulary g →
  let q := Z.quot (cond_Zopp sg (Zpos m) * 2 ^ Z.max e 0) (2 ^ Z.max (- e) 0) in
  py_int (VFloat (S754_finite sg m e)) = inr q ∧
  (∃ k, features g (<["attempts" := VFloat (S754_finite sg m e)]> data)
        = inr [[NFloat a; NFloat t; NInt q; NInt k]]) ∧
  status (post_predict g (<["attempts" := VFloat (S754_finite sg m e)]> data)) = 200 ∧
  post_predict g (<["attempts" := VFloat (S754_finite sg m e)]> data)
    = post_predict g (<["attempts" := VInt q]> data) ∧
  PyParse.parse_float "2.9" = Some Literals.two_point_nine ∧
  py_int (VFloat Literals.two_point_nine) = inr 2 ∧
  status (post_predict g (<["attempts" := VStr "2.9"]> data)) = 400.
Proof.
  intros Hc Hv Hs q.
  assert (py_int (VFloat (S754_finite sg m e)) = inr q) as Hq.
  { simpl. by rewrite trunc_toward_zero. }
  destruct (transform_label_known g s Hs) as (k & Hk & _).
  pose proof (coerces_attempts _ _ _ _ _ Hv _ _ Hq) as Hv'.
  pose proof (coerces_attempts data s a t n Hv (VInt q) q eq_refl) as Hv''.
  pose proof (features_coerces g _ s a t q k Hv' Hk) as HX'.
  pose proof (features_coerces g _ s a t q k Hv'' Hk) as HX''.
  split; [done|]. split; [by exists k|]. split.
  { by apply (coerces_status_200 g _ s a t q). }
  split.
  { unfold post_predict, predict_level, predict_level_try.
    by rewrite HX', HX''. }
  split; [by vm_compute|]. split; [by vm_compute|].
  eapply attempts_raises_400; [by rewrite lookup_insert_eq|]. by vm_compute.
Qed.

Lemma fractional_attempts_truncated_witness :
  features Demo.artifacts
    (<["attempts" := VFloat Literals.two_point_nine]> Demo.request)
    = features Demo.artifacts Demo.request ∧
  status (post_predict Demo.artifacts
            (<["attempts" := VFloat Literals.two_point_nine]> Demo.request)) = 200 ∧
  status (post_predict Demo.artifacts
            (<["attempts" := VStr "2.9"]> Demo.request)) = 400.
Proof.
  destruct (fractional_attempts_truncated Demo.artifacts Demo.request "algebra"
              _ _ 2 false 6530219459687219 (-51)
              demo_contract demo_coerces demo_topic)
    as (_ & _ & H200 & _ & _ & _ & H400).
  split; [reflexivity|]. split; [exact H200 | exact H400].
Defined.

(** ** Further properties of the handler *)

Section Reads.
Implicit Types (g : Artifacts) (data : gmap string value) (v : value) (e : exn).

(** The feature stage sees the payload through the four keys and the
    artifacts through the topic encoder. *)
Lemma features_congr g g' data data' :
  topic_encoder g = topic_encoder g' →
  agree_on_required data data' →
  features g data = features g' data'.
Proof.
  intros Henc Hagree. unfold features, getitem.
  rewrite Henc.
  rewrite (Hagree "topic"), (Hagree "accuracy_percent"),
    (Hagree "avg_time_seconds"), (Hagree "attempts");
    [done|unfold required_keys; set_solver..].
Qed.

(** The answer follows the feature stage, the classifier and the level
    encoder. *)
Lemma post_predict_congr g data data' :
  features g data = features g data' →
  post_predict g data = post_predict g data'.
Proof.
  intros H. unfold post_predict, predict_level, predict_level_try.
  by rewrite H.
Qed.

(** An exception of the feature stage is the answer under any artifacts
    whose feature stage raises it. *)
Lemma post_predict_features_raise g data e :
  features g data = inl e →
  post_predict g data = Response 400 [("detail", py_str e)].
Proof. intros H. by apply post_predict_raise, try_features_raise. Qed.

(** When one of the four reads does not go through, the feature stage
    raises before it consults any artifact. *)
Lemma reads_fail data :
  ¬ Forall (read_ok data) required_keys →
  ∃ e, ∀ g, features g data = inl e.
Proof.
  intros Hbad. unfold features, getitem.
  destruct (data !! "topic") as [v0|] eqn:H0; [|by eexists].
  destruct (data !! "accuracy_percent") as [v1|] eqn:H1; [|by eexists].
  monad. destruct (py_float v1) as [e1|a] eqn:Ha; [by eexists|]. monad.
  destruct (data !! "avg_time_seconds") as [v2|] eqn:H2; [|by eexists].
  monad. destruct (py_float v2) as [e2|t] eqn:Ht; [by eexists|]. monad.
  destruct (data !! "attempts") as [v3|] eqn:H3; [|by eexists].
  monad. destruct (py_int v3) as [e3|n] eqn:Hn; [by eexists|].
  destruct Hbad. unfold required_keys.
  repeat (apply Forall_cons; split); [..|apply Forall_nil_2].
  - by exists v0.
  - exists v1. split; [done|]. unfold coercion. simpl. by rewrite Ha.
  - exists v2. split; [done|]. unfold coercion. simpl. by rewrite Ht.
  - exists v3. split; [done|]. unfold coercion. simpl. by rewrite Hn.
Qed.

(** The exception of the first read, in the order of the source, that
    does not go through is the exception of the feature stage. *)
Lemma features_first_failure g data k before after e :
  required_keys = (before ++ k :: after)%list →
  Forall (read_ok data) before →
  getitem data k ≫= coercion k = inl e →
  features g data = inl e.
Proof.
  intros Hsplit Hbefore Hk. unfold required_keys in Hsplit.
  unfold features. unfold getitem in *.
  destruct before as [|k0 before]; simplify_eq/=.
  { destruct (data !! "topic"); [done|]. by simplify_eq/=. }
  apply Forall_cons in Hbefore as [(v0 & -> & _) Hbefore].
  destruct before as [|k1 before]; simplify_eq/=.
  { destruct (data !! "accuracy_percent") as [v1|]; [|by simplify_eq/=].
    unfold coercion in Hk. simpl in Hk. monad.
    destruct (py_float v1); [by simplify_eq/=|done]. }
  apply Forall_cons in Hbefore as [(v1 & -> & Hv1) Hbefore].
  unfold coercion in Hv1. simpl in Hv1. monad.
  destruct (py_float v1) as [|a]; [done|]. monad.
  destruct before as [|k2 before]; simplify_eq/=.
  { destruct (data !! "avg_time_seconds") as [v2|]; [|by simplify_eq/=].
    unfold coercion in Hk. simpl in Hk. monad.
    destruct (py_float v2); [by simplify_eq/=|done]. }
  apply Forall_cons in Hbefore as [(v2 & -> & Hv2) Hbefore].
  unfold coercion in Hv2. simpl in Hv2. monad.
  destruct (py_float v2) as [|t]; [done|]. monad.
  destruct before as [|k3 before]; simplify_eq/=.
  { destruct (data !! "attempts") as [v3|]; [|by simplify_eq/=].
    unfold coercion in Hk. simpl in Hk. monad.
    destruct (py_int v3); [by simplify_eq/=|done]. }
  destruct before; simplify_eq/=.
Qed.

End Reads.

(** X1.  The handler reads the four keys and nothing else: two payloads
    that hold the same under [topic], [accuracy_percent],
    [avg_time_seconds] and [attempts] get the same answer, whatever else
    they hold. *)
Theorem other_keys_ignored (g : Artifacts) (data data' : gmap string value) :
  agree_on_required data data' →
  post_predict g data = post_predict g data'.
Proof.
  intros Hagree. apply post_predict_congr. by apply features_congr.
Qed.

Lemma other_keys_ignored_witness :
  post_predict Demo.artifacts Demo.request
    = post_predict Demo.artifacts
        (<["student_id" := VInt 7]> (<["debug" := VBool true]> Demo.request)).
Proof.
  apply other_keys_ignored. intros k Hk. unfold required_keys in Hk.
  repeat (apply elem_of_cons in Hk as [->|Hk]; [reflexivity|]).
  by apply elem_of_nil in Hk.
Defined.

(** X2.  The payload is checked before any artifact is consulted: when a
    required key is missing or a number does not coerce, the answer is the
    same 400 under every classifier, topic encoder and level encoder.  An
    unknown topic in such a payload is never reported. *)
Theorem bad_payload_answer_ignores_artifacts (g g' : Artifacts)
    (data : gmap string value) :
  ¬ Forall (read_ok data) required_keys →
  post_predict g data = post_predict g' data ∧
  status (post_predict g data) = 400.
Proof.
  intros Hbad. destruct (reads_fail data Hbad) as [e He].
  rewrite (post_predict_features_raise g data e (He g)).
  by rewrite (post_predict_features_raise g' data e (He g')).
Qed.

Lemma bad_payload_answer_ignores_artifacts_witness :
  post_predict Demo.artifacts
    (<["topic" := VStr "quantum_foo"]> (delete "attempts" Demo.request))
    = post_predict Demo.strict
        (<["topic" := VStr "quantum_foo"]> (delete "attempts" Demo.request)) ∧
  status (post_predict Demo.artifacts
            (<["topic" := VStr "quantum_foo"]> (delete "attempts" Demo.request)))
    = 400.
Proof.
  apply bad_payload_answer_ignores_artifacts. intros Hall.
  unfold required_keys in Hall.
  apply Forall_cons in Hall as [_ Hall].
  apply Forall_cons in Hall as [_ Hall].
  apply Forall_cons in Hall as [_ Hall].
  apply Forall_cons in Hall as [(v & Hv & _) _].
  discriminate Hv.
Defined.

(** X3.  The detail of a 400 raised while the payload is read is the text
    of the first read, in the order [topic], [accuracy_percent],
    [avg_time_seconds], [attempts], that fails: a [KeyError] when the key
    is missing, the error of [float] or [int] when its value does not
    coerce.  Later fields are not looked at. *)
Theorem first_failing_read_is_reported (g : Artifacts) (data : gmap string value)
    (k : string) (before after : list string) (e : exn) :
  required_keys = (before ++ k :: after)%list →
  Forall (read_ok data) before →
  getitem data k ≫= coercion k = inl e →
  post_predict g data = Response 400 [("detail", py_str e)].
Proof.
  intros Hsplit Hbefore Hk. apply post_predict_features_raise.
  by eapply features_first_failure.
Qed.

Lemma first_failing_read_is_reported_witness :
  post_predict Demo.artifacts
    (<["avg_time_seconds" := VStr "fast"]> (delete "attempts" Demo.request))
    = Response 400 [("detail", "could not convert string to float: 'fast'")].
Proof.
  apply (first_failing_read_is_reported Demo.artifacts _ "avg_time_seconds"
           ["topic"; "accuracy_percent"] ["attempts"]
           (Raise ValueError "could not convert string to float: 'fast'")).
  - reflexivity.
  - repeat (apply Forall_cons; split; [eexists; split; reflexivity|]).
    apply Forall_nil_2.
  - reflexivity.
Defined.

Section Numbers.
Implicit Types (g : Artifacts) (data : gmap string value) (v : value).

(** Two values on which the coercion of a numeric key does the same are
    interchangeable under that key. *)
Lemma features_same_accuracy g data v v' :
  py_float v = py_float v' →
  features g (<["accuracy_percent" := v]> data)
    = features g (<["accuracy_percent" := v']> data).
Proof.
  intros H. unfold features, getitem.
  rewrite !lookup_insert_eq, !lookup_insert_ne by done. monad. by rewrite H.
Qed.

Lemma features_same_avg_time g data v v' :
  py_float v = py_float v' →
  features g (<["avg_time_seconds" := v]> data)
    = features g (<["avg_time_seconds" := v']> data).
Proof.
  intros H. unfold features, getitem.
  rewrite !lookup_insert_eq, !lookup_insert_ne by done. monad. by rewrite H.
Qed.

Lemma features_same_attempts g data v v' :
  py_int v = py_int v' →
  features g (<["attempts" := v]> data)
    = features g (<["attempts" := v']> data).
Proof.
  intros H. unfold features, getitem.
  rewrite !lookup_insert_eq, !lookup_insert_ne by done. monad. by rewrite H.
Qed.

Lemma float_of_bool b : py_float (VBool b) = py_float (VInt (if b then 1 else 0)).
Proof. by destruct b. Qed.

Lemma int_of_bool b : py_int (VBool b) = py_int (VInt (if b then 1 else 0)).
Proof. done. Qed.

(** [float] and [int] raise a [TypeError] on [None], a list or a dict. *)
Lemma float_not_scalar v :
  not_scalar v = true → ∃ msg, py_float v = raise TypeError msg.
Proof. destruct v; try done; intros _; by eexists. Qed.

Lemma int_not_scalar v :
  not_scalar v = true → ∃ msg, py_int v = raise TypeError msg.
Proof. destruct v; try done; intros _; by eexists. Qed.

End Numbers.

(** X4.  A JSON boolean under a numeric key is not rejected: [true] is
    read as 1 and [false] as 0, and the answer is the one the integer
    gets. *)
Theorem booleans_read_as_numbers (g : Artifacts) (data : gmap string value)
    (k : string) (b : bool) :
  k ∈ numeric_keys →
  post_predict g (<[k := VBool b]> data)
    = post_predict g (<[k := VInt (if b then 1 else 0)]> data).
Proof.
  intros Hk. apply post_predict_congr. unfold numeric_keys in Hk.
  apply elem_of_cons in Hk as [->|Hk];
    [apply features_same_accuracy, float_of_bool|].
  apply elem_of_cons in Hk as [->|Hk];
    [apply features_same_avg_time, float_of_bool|].
  apply elem_of_cons in Hk as [->|Hk];
    [apply features_same_attempts, int_of_bool|].
  by apply elem_of_nil in Hk.
Qed.

Lemma booleans_read_as_numbers_witness :
  post_predict Demo.artifacts (<["attempts" := VBool true]> Demo.request)
    = post_predict Demo.artifacts (<["attempts" := VInt 1]> Demo.request).
Proof.
  apply (booleans_read_as_numbers Demo.artifacts Demo.request "attempts" true).
  unfold numeric_keys. set_solver.
Defined.

(** X5.  The handler checks no range on the two float fields: with a
    known topic and attempts that coerce, any float under
    [accuracy_percent] and [avg_time_seconds] (a NaN, an infinity or a
    negative number as well) is not rejected and is the first,
    respectively the second, entry of the row; under artifacts that keep
    the contract the request is answered with a 200. *)
Theorem floats_pass_unchecked (g : Artifacts) (data : gmap string value)
    (s : string) (k n : Z) (f f' : PyFloat.t) :
  data !! "topic" = Some (VStr s) →
  topic_codes (topic_encoder g) !! s = Some k →
  (∃ v, data !! "attempts" = Some v ∧ py_int v = inr n) →
  let data' := <["accuracy_percent" := VFloat f]>
                 (<["avg_time_seconds" := VFloat f']> data) in
  (∃ rest, features g data' = inr [NFloat f :: NFloat f' :: rest]) ∧
  (classifier_contract g → status (post_predict g data') = 200).
Proof.
  intros Ht Hk (v & Hv & Hn) data'.
  assert (coerces data' s f f' n) as Hc.
  { unfold data'. repeat split.
    - by rewrite !lookup_insert_ne by done.
    - exists (VFloat f). by rewrite lookup_insert_eq.
    - exists (VFloat f'). rewrite lookup_insert_ne by done.
      by rewrite lookup_insert_eq.
    - exists v. by rewrite !lookup_insert_ne by done. }
  split.
  - exists [NInt n; NInt k]. by apply (features_coerces g data' s f f' n k).
  - intros Hcontract. apply (coerces_status_200 g data' s f f' n); [done..|].
    apply elem_of_dom. by exists k.
Qed.

Lemma floats_pass_unchecked_witness :
  (∃ rest,
     features Demo.artifacts
       (<["accuracy_percent" := VFloat S754_nan]>
          (<["avg_time_seconds" := VFloat (S754_infinity true)]> Demo.request))
       = inr [NFloat S754_nan :: NFloat (S754_infinity true) :: rest]) ∧
  status (post_predict Demo.artifacts
    (<["accuracy_percent" := VFloat S754_nan]>
       (<["avg_time_seconds" := VFloat (S754_infinity true)]> Demo.request)))
    = 200.
Proof.
  destruct (floats_pass_unchecked Demo.artifacts Demo.request "algebra" 0 2
              S754_nan (S754_infinity true) eq_refl eq_refl) as [HX H200].
  - exists (VInt 2). split; reflexivity.
  - split; [exact HX | exact (H200 demo_contract)].
Defined.

(** X6.  A NaN or an infinity under [attempts] is always answered with a
    400, although the same value under [accuracy_percent] or
    [avg_time_seconds] is accepted; when the three reads before it go
    through, the detail is the text of the error [int] raises. *)
Theorem non_finite_attempts_rejected (g : Artifacts) (data : gmap string value)
    (f : PyFloat.t) :
  data !! "attempts" = Some (VFloat f) →
  PyFloat.is_finite f = false →
  status (post_predict g data) = 400 ∧
  (Forall (read_ok data) ["topic"; "accuracy_percent"; "avg_time_seconds"] →
   post_predict g data =
     Response 400
       [("detail", match f with
                   | S754_nan => "cannot convert float NaN to integer"
                   | _ => "cannot convert float infinity to integer"
                   end)]).
Proof.
  intros Hf Hnf.
  assert (∃ e, py_int (VFloat f) = inl e ∧
               py_str e = match f with
                          | S754_nan => "cannot convert float NaN to integer"
                          | _ => "cannot convert float infinity to integer"
                          end) as (e & He & Hstr).
  { destruct f; try done; by eexists. }
  split.
  - by apply (attempts_raises_400 g data (VFloat f) e).
  - intros Hbefore. rewrite <- Hstr.
    apply post_predict_features_raise.
    apply (features_first_failure g data "attempts"
             ["topic"; "accuracy_percent"; "avg_time_seconds"] []);
      [done..|].
    unfold getitem. rewrite Hf. monad.
    change (coercion "attempts" (VFloat f))
      with (py_int (VFloat f) ≫= λ _ : Z, mret ()).
    by rewrite He.
Qed.

Lemma non_finite_attempts_rejected_witness :
  post_predict Demo.artifacts (<["attempts" := VFloat S754_nan]> Demo.request)
    = Response 400 [("detail", "cannot convert float NaN to integer")].
Proof.
  assert (<["attempts" := VFloat S754_nan]> Demo.request !! "attempts"
            = Some (VFloat S754_nan)) as Hf by (vm_compute; reflexivity).
  destruct (non_finite_attempts_rejected Demo.artifacts
              (<["attempts" := VFloat S754_nan]> Demo.request) S754_nan
              Hf eq_refl) as [_ Hdetail].
  apply Hdetail.
  repeat (apply Forall_cons; split; [eexists; split; reflexivity|]).
  apply Forall_nil_2.
Defined.

(** X7.  A [null], an array or an object under a numeric key is answered
    with a 400: [float] and [int] raise a [TypeError] on it. *)
Theorem non_scalar_number_rejected (g : Artifacts) (data : gmap string value)
    (k : string) (v : value) :
  k ∈ numeric_keys →
  data !! k = Some v →
  not_scalar v = true →
  status (post_predict g data) = 400.
Proof.
  intros Hk Hv Hns. unfold numeric_keys in Hk.
  destruct (float_not_scalar v Hns) as [msgf Hfloat].
  destruct (int_not_scalar v Hns) as [msgi Hint].
  apply elem_of_cons in Hk as [->|Hk];
    [by eapply accuracy_raises_400|].
  apply elem_of_cons in Hk as [->|Hk];
    [by eapply avg_time_raises_400|].
  apply elem_of_cons in Hk as [->|Hk];
    [by eapply attempts_raises_400|].
  by apply elem_of_nil in Hk.
Qed.

Lemma non_scalar_number_rejected_witness :
  status (post_predict Demo.artifacts
            (<["avg_time_seconds" := VNone]> Demo.request)) = 400.
Proof.
  apply (non_scalar_number_rejected Demo.artifacts _ "avg_time_seconds" VNone).
  - unfold numeric_keys. set_solver.
  - reflexivity.
  - reflexivity.
Defined.

Section Decoding.
Variable enc : LevelEncoder.
Implicit Types (cs : list Z) (ls : list string).

Lemma inverse_transform_cons c cs :
  inverse_transform enc (c :: cs) =
    (l ← inverse_transform_label enc c;
     ls ← inverse_transform enc cs;
     mret (l :: ls)).
Proof. reflexivity. Qed.

Lemma inverse_transform_label_inr c l :
  inverse_transform_label enc c = inr l ↔ enc !! c = Some l.
Proof.
  unfold inverse_transform_label. destruct (enc !! c); split; try done.
  - by intros [= <-].
  - by intros [= <-].
Qed.

(** [inverse_transform] returns when every class id has a label, and
    then returns the labels in order. *)
Lemma inverse_transform_inr cs ls :
  inverse_transform enc cs = inr ls ↔ Forall2 (λ c l, enc !! c = Some l) cs ls.
Proof.
  revert ls. induction cs as [|c cs IH]; intros ls.
  - split.
    + intros [= <-]. constructor.
    + intros H. by inversion H.
  - rewrite inverse_transform_cons.
    destruct (inverse_transform_label enc c) as [e|l] eqn:Hc; monad.
    + split; [done|]. intros H. inversion H as [|? l' ? ls' Hl Hrest]; subst.
      apply inverse_transform_label_inr in Hl. congruence.
    + apply inverse_transform_label_inr in Hc.
      destruct (inverse_transform enc cs) as [e|ls'] eqn:Hm; monad.
      * split; [done|]. intros H. inversion H as [|? l' ? ls' Hl Hrest]; subst.
        by apply IH in Hrest.
      * split.
        -- intros [= <-]. constructor; [done|]. by apply IH.
        -- intros H. apply Forall2_cons_inv_l in H as (l' & ls'' & Hl & Hrest & ->).
           apply IH in Hrest. by simplify_eq.
Qed.

Lemma inverse_transform_total cs :
  Forall (λ c, is_Some (enc !! c)) cs → ∃ ls, inverse_transform enc cs = inr ls.
Proof.
  induction 1 as [|c cs [l Hl] _ [ls IH]].
  - by exists [].
  - exists (l :: ls). apply inverse_transform_inr. constructor; [done|].
    by apply inverse_transform_inr.
Qed.

End Decoding.

(** X8.  A prediction the level encoder cannot decode is answered with a
    400: when the classifier returns a class id without a label, or no
    class id at all, the exception of the decoding is caught like any
    other. *)
Theorem undecodable_prediction_rejected (g : Artifacts)
    (data : gmap string value) (X : list (list num)) (cs : list Z) :
  features g data = inr X →
  model g X = inr cs →
  cs = [] ∨ ¬ Forall (decodable g) cs →
  status (post_predict g data) = 400.
Proof.
  intros HX Hm Hbad.
  assert (∃ e, inverse_transform (level_encoder g) cs ≫= getitem0 = inl e)
    as [e He].
  { destruct Hbad as [->|Hbad]; [by eexists|].
    destruct (inverse_transform (level_encoder g) cs) as [e|ls] eqn:Hinv;
      [by eexists|].
    destruct Hbad. apply inverse_transform_inr in Hinv.
    clear -Hinv. induction Hinv; constructor; [by eexists|done]. }
  unfold post_predict, predict_level, predict_level_try.
  rewrite HX. monad. rewrite Hm. monad. by rewrite He.
Qed.

Lemma undecodable_prediction_rejected_witness :
  status (post_predict (with_model Demo.artifacts (λ X, mret (map (λ _, 7) X)))
            Demo.request) = 400.
Proof.
  eapply (undecodable_prediction_rejected _ _ _ [7]).
  - reflexivity.
  - reflexivity.
  - right. intros Hall. apply Forall_cons in Hall as [[l Hl] _].
    discriminate Hl.
Defined.

(** X9.  The answer carries the label of the first class id the
    classifier returns, whenever all the class ids it returns have a
    label. *)
Theorem first_prediction_is_answered (g : Artifacts) (data : gmap string value)
    (X : list (list num)) (c : Z) (cs : list Z) (l : string) :
  features g data = inr X →
  model g X = inr (c :: cs) →
  level_encoder g !! c = Some l →
  Forall (decodable g) cs →
  post_predict g data = Response 200 [("predicted_level", l)].
Proof.
  intros HX Hm Hl Hcs.
  destruct (inverse_transform_total (level_encoder g) cs Hcs) as [ls Hls].
  assert (inverse_transform (level_encoder g) (c :: cs) = inr (l :: ls)) as Hinv.
  { apply inverse_transform_inr. constructor; [done|].
    by apply inverse_transform_inr. }
  unfold post_predict, predict_level, predict_level_try.
  rewrite HX. monad. rewrite Hm. monad. by rewrite Hinv.
Qed.

Lemma first_prediction_is_answered_witness :
  post_predict (with_model Demo.artifacts (λ X, mret [2; 0; 1])) Demo.request
    = Response 200 [("predicted_level", "intermediate")].
Proof.
  eapply (first_prediction_is_answered _ _ _ 2 [0; 1]).
  - reflexivity.
  - reflexivity.
  - reflexivity.
  - repeat (apply Forall_cons; split; [eexists; reflexivity|]).
    apply Forall_nil_2.
Defined.

(** X10.  The files are loaded in the order classifier, topic encoder,
    level encoder, and the process exits with the exception of the first
    one that does not load, whatever the state of the files after it; a
    missing classifier file is reported by its name. *)
Theorem first_unloadable_file_ends_startup (d : disk) :
  (∀ e, joblib_load "coa_model.pkl" (coa_model_pkl d) = inl e →
        start d = Exited e) ∧
  (∀ e, loadable (coa_model_pkl d) →
        joblib_load "topic_encoder.pkl" (topic_encoder_pkl d) = inl e →
        start d = Exited e) ∧
  (∀ e, loadable (coa_model_pkl d) → loadable (topic_encoder_pkl d) →
        joblib_load "level_encoder.pkl" (level_encoder_pkl d) = inl e →
        start d = Exited e) ∧
  (coa_model_pkl d = Missing →
   ∃ e, start d = Exited e ∧
        py_str e = "[Errno 2] No such file or directory: 'coa_model.pkl'").
Proof.
  unfold start, module_init. repeat split.
  - intros e He. by rewrite He.
  - intros e [m ->] He. simpl. by rewrite He.
  - intros e [m ->] [te ->] He. simpl. by rewrite He.
  - intros ->. by eexists.
Qed.

Lemma first_unloadable_file_ends_startup_witness :
  start {| coa_model_pkl := Pickled (model Demo.artifacts);
           topic_encoder_pkl :=
             Corrupt (Raise (OtherException "EOFError") "Ran out of input");
           level_encoder_pkl := Missing |}
    = Exited (Raise (OtherException "EOFError") "Ran out of input").
Proof.
  destruct (first_unloadable_file_ends_startup
              {| coa_model_pkl := Pickled (model Demo.artifacts);
                 topic_encoder_pkl :=
                   Corrupt (Raise (OtherException "EOFError") "Ran out of input");
                 level_encoder_pkl := Missing |})
    as (_ & Htopic & _).
  apply Htopic.
  - by eexists.
  - reflexivity.
Defined.
